(** * Transactions Live Dashboard: the load / window / KPI pipeline

    A shallow embedding of [app.py]: the queries [load_data] sends to DuckDB,
    the cache around it, the empty-table guard, the time-window masks, the
    KPI computations, the auth-code chart and the table view, followed by the
    properties of that pipeline. *)

From Stdlib Require Import ZArith QArith Ascii String.
From stdpp Require Import base decidable option list sorting strings gmap.

Local Open Scope string_scope.
Local Open Scope Z_scope.

(** ** Typed tables

    [ts] is a DuckDB [TIMESTAMP]: microseconds since the epoch.  [count] is a
    [BIGINT].  [status] and [auth_code] are strings, as the script's own
    comparisons with 'approved' and '00' take them.  Rows are kept in file
    order. *)

Record StatusRecord := mkStatus {
  s_ts : Z;
  s_status : string;
  s_count : Z
}.

Record AuthRecord := mkAuth {
  a_ts : Z;
  a_code : string;
  a_count : Z
}.

(** One row of [organized_df].  [auth_00_count] is the nullable column that
    the LEFT JOIN brings in: [None] is SQL NULL. *)
Record OrganizedRecord := mkOrganized {
  o_ts : Z;
  approved : Z;
  denied : Z;
  reversed : Z;
  backend_reversed : Z;
  failed : Z;
  refunded : Z;
  auth_00_count : option Z
}.

#[global] Instance StatusRecord_eq_dec : EqDecision StatusRecord.
Proof. solve_decision. Defined.
#[global] Instance AuthRecord_eq_dec : EqDecision AuthRecord.
Proof. solve_decision. Defined.
#[global] Instance OrganizedRecord_eq_dec : EqDecision OrganizedRecord.
Proof. solve_decision. Defined.

(** Sum of a column of integers. *)
Definition SUM (l : list Z) : Z := foldr Z.add 0 l.

(** ** Exceptions *)

(** The exceptions that end a script run. *)
Inductive Exception :=
| ParserException                 (* DuckDB rejects the text of a query *)
| DuckDBException (kind : string) (* any other error of DuckDB on a query *)
| ZeroDivisionError.

(** Results of code that may raise. *)
Inductive Raises (A : Type) :=
| Ok (a : A)
| Raise (e : Exception).
Arguments Ok {A} a.
Arguments Raise {A} e.

#[global] Instance Raises_ret : MRet Raises := λ A a, Ok a.
#[global] Instance Raises_bind : MBind Raises := λ A B k m,
  match m with
  | Ok a => k a
  | Raise e => Raise e
  end.

(** [to_duckdb_path]: every backslash becomes a forward slash. *)
Definition to_duckdb_path (path_str : string) : string :=
  string_of_list_ascii
    ((λ c, if decide (c = "\"%char) then "/"%char else c)
       <$> list_ascii_of_string path_str).

(** The three tables [load_data] returns. *)
Definition Tables : Type :=
  list StatusRecord * list AuthRecord * list OrganizedRecord.

(** ** The queries of [load_data] (lines 41-97)

    Each of the three queries reads its rows through the table function call
    [read_csv_auto('{path}', header TRUE)] (lines 54, 63, 72 and 76).  The
    text of a query is modelled as far as DuckDB's parser decides about it:
    the words of the arguments of its table function calls.  What DuckDB does
    with a query once it is parsed (opening the files, detecting the types of
    the columns, the casts, the join and the grouping, and [.df()]) is not
    modelled: it is a parameter of [load_data]. *)

Inductive Word :=
| StringConstant (s : string)   (* '...' *)
| Identifier (name : string)
| Constant (keyword : string)   (* TRUE, FALSE, NULL *)
| Operator (op : string).       (* =, :=, ... *)

(** A table function call: its name and its comma-separated arguments, each
    a sequence of words. *)
Record TableFunctionCall := mkCall {
  function_name : string;
  arguments : list (list Word)
}.

(** [read_csv_auto('{duck_path}', header TRUE)], as the f-strings write it.
    The path is taken free of quote characters, as the two configured paths
    are: a quote in the path would end the string constant early. *)
Definition read_csv_auto (duck_path : string) : TableFunctionCall :=
  mkCall "read_csv_auto"
    [[StringConstant duck_path]; [Identifier "header"; Constant "TRUE"]].

(** DuckDB's grammar has no argument in which an identifier is followed at
    once by a constant: a named parameter is written [name = value] or
    [name := value].  [syntax_error] finds that one error; any other error
    of a text is left to the run of the query. *)
Fixpoint syntax_error (words : list Word) : bool :=
  match words with
  | [] => false
  | w :: rest =>
      match w, rest with
      | Identifier _, Constant _ :: _ => true
      | _, _ => syntax_error rest
      end
  end.

Definition parses (call : TableFunctionCall) : bool :=
  forallb (λ argument, negb (syntax_error argument)) (arguments call).

(** [con.execute(text).df()] for a text with the given table function calls.
    The parser comes first: a text with a syntax error raises
    [ParserException] before any file is opened; otherwise the outcome is
    that of [run], DuckDB's binding and running of the query. *)
Definition con_execute {A} (calls : list TableFunctionCall) (run : Raises A)
  : Raises A :=
  if forallb parses calls then run else Raise ParserException.

Section LoadData.

(** What DuckDB returns for each of the three queries, were its text parsed:
    the two typed tables for the files at the given paths, and the organized
    view. *)
Variable run_df_status : string → Raises (list StatusRecord).
Variable run_df_auth : string → Raises (list AuthRecord).
Variable run_organized_df : string → string → Raises (list OrganizedRecord).

(** [load_data]: the three [con.execute(...).df()] in order (lines 49-95).
    The third query has the call twice, in its CTEs [t] and [ac]. *)
Definition load_data (transactions_csv auth_codes_csv : string) : Raises Tables :=
  let transactions_duck_path := to_duckdb_path transactions_csv in
  let auth_duck_path := to_duckdb_path auth_codes_csv in
  df_status ← con_execute [read_csv_auto transactions_duck_path]
                 (run_df_status transactions_duck_path);
  df_auth ← con_execute [read_csv_auto auth_duck_path]
               (run_df_auth auth_duck_path);
  organized_df ← con_execute [read_csv_auto transactions_duck_path;
                              read_csv_auto auth_duck_path]
                    (run_organized_df transactions_duck_path auth_duck_path);
  Ok (df_status, df_auth, organized_df).

End LoadData.

(** ** The cache layer: [@st.cache_data(show_spinner=False, ttl=5)]

    The decorator of [load_data] is Streamlit's; its implementation is not
    part of the application source.  The definitions of this module follow the
    specification of the cache layer, over an explicit clock and an explicit
    count of reader invocations. *)

Module Cache.

(** Modelled from the spec: the cache entry of the data model,
    [{ source_identity, computed_at, ttl, payload }]; the source identity is
    the pair of arguments of [load_data]. *)
Record CacheEntry := mkEntry {
  source_identity : string * string;
  computed_at : Z;
  ttl : Z;
  payload : Tables
}.

(** Modelled from the spec: the state shared across refresh cycles, the
    entries by source identity, with the call-count probe on the reader. *)
Record State := mkState {
  entries : gmap (string * string) CacheEntry;
  reader_calls : nat
}.

(** Modelled from the spec: "a CacheEntry is valid only while
    now - computed_at < ttl". *)
Definition valid (now : Z) (e : CacheEntry) : bool :=
  bool_decide (now - computed_at e < ttl e).

Section WithReader.

(** Source Reader + Aggregator on the sources as they are at the call. *)
Variable reader : string → string → Raises Tables.

(** Modelled from the spec: "perform Source Reader + Aggregator, store the
    result with computed_at = now, and return it"; a failure of the reader
    propagates and stores nothing. *)
Definition recompute (now : Z) (id : string * string) (ttl : Z) (st : State)
  : Raises Tables * State :=
  match reader id.1 id.2 with
  | Ok p => (Ok p, mkState (<[id := mkEntry id now ttl p]> (entries st))
                           (S (reader_calls st)))
  | Raise e => (Raise e, mkState (entries st) (S (reader_calls st)))
  end.

(** Modelled from the spec: [get_or_compute(source_identity, ttl)], "if a
    non-expired CacheEntry exists for source_identity, return its payload
    unchanged (no re-read); otherwise perform Source Reader + Aggregator". *)
Definition get_or_compute (now : Z) (id : string * string) (ttl : Z) (st : State)
  : Raises Tables * State :=
  match entries st !! id with
  | Some e => if valid now e then (Ok (payload e), st) else recompute now id ttl st
  | None => recompute now id ttl st
  end.

End WithReader.

End Cache.

(** ** The script after [load_data] (lines 100-145) *)

Definition TRANSACTIONS_CSV : string := "c:\\Users\\super\\Downloads\\transactions.csv".
Definition AUTH_CODES_CSV : string := "c:\\Users\\super\\Downloads\\transactions_auth_codes.csv".

(** [timedelta(hours=h, minutes=m)], in microseconds. *)
Definition timedelta (hours minutes : Z) : Z :=
  (hours * 3600 + minutes * 60) * 1000000.

(** [Series.max()] of a column with at least one row. *)
Definition Series_max (x : Z) (xs : list Z) : Z := foldr Z.max x xs.

(** Lines 115-122: [None] is Python's [None], no lower bound. *)
Definition start_ts (window_choice : string) (max_ts : Z) : option Z :=
  if decide (window_choice = "15 minutes") then Some (max_ts - timedelta 0 15)
  else if decide (window_choice = "1 hour") then Some (max_ts - timedelta 1 0)
  else if decide (window_choice = "6 hours") then Some (max_ts - timedelta 6 0)
  else None.

(** Lines 124-130: the three masks [ts >= start_ts] and the [.loc] selections. *)
Definition mask_status (start : Z) (r : StatusRecord) : Prop := start ≤ s_ts r.
Definition mask_auth (start : Z) (r : AuthRecord) : Prop := start ≤ a_ts r.
Definition mask_org (start : Z) (r : OrganizedRecord) : Prop := start ≤ o_ts r.

#[global] Instance mask_status_dec start r : Decision (mask_status start r).
Proof. unfold mask_status. apply _. Defined.
#[global] Instance mask_auth_dec start r : Decision (mask_auth start r).
Proof. unfold mask_auth. apply _. Defined.
#[global] Instance mask_org_dec start r : Decision (mask_org start r).
Proof. unfold mask_org. apply _. Defined.

Definition window (start : option Z) (tables : Tables) : Tables :=
  match start with
  | Some start_ts =>
      let '(df_status, df_auth, organized_df) := tables in
      (filter (mask_status start_ts) df_status,
       filter (mask_auth start_ts) df_auth,
       filter (mask_org start_ts) organized_df)
  | None => tables
  end.

(** [Series.sum()] of an [int64] column: the sum, wrapped to 64 bits. *)
Definition int64 (z : Z) : Z := (z + 2 ^ 63) mod 2 ^ 64 - 2 ^ 63.
Definition Series_sum (l : list Z) : Z := int64 (SUM l).

Definition total_tx (df_status : list StatusRecord) : Z :=
  Series_sum (s_count <$> df_status).

Definition approved_total (df_status : list StatusRecord) : Z :=
  Series_sum (s_count <$> filter (λ r, s_status r = "approved") df_status).

Definition a00_total (df_auth : list AuthRecord) : Z :=
  Series_sum (a_count <$> filter (λ r, a_code r = "00") df_auth).

(** Python's [a / b] on integers: raises when [b] is zero.  The quotient is
    kept as an exact rational; the rounding of the float is not modelled. *)
Definition truediv (a b : Z) : Raises Q :=
  if decide (b = 0) then Raise ZeroDivisionError
  else Ok (inject_Z a / inject_Z b)%Q.

(** Line 144:
    [(approved_total / total_tx * 100.0) if total_tx else 0.0] *)
Definition approval_rate (approved_total total_tx : Z) : Raises Q :=
  if decide (total_tx ≠ 0)
  then q ← truediv approved_total total_tx; Ok (q * 100)%Q
  else Ok 0%Q.

(** What one run hands to the widgets: the windowed tables and the KPIs. *)
Record View := mkView {
  v_tables : Tables;
  v_total_tx : Z;
  v_approved_total : Z;
  v_a00_total : Z;
  v_approval_rate : Q
}.

Inductive Outcome :=
| FilesNotFound              (* st.error(...); st.stop(), lines 101-103 *)
| Uncaught (e : Exception)   (* an exception ends the run *)
| NoData                     (* st.warning("No data loaded from CSVs."); st.stop() *)
| Rendered (v : View).

Definition kpis (tables : Tables) : Raises View :=
  let '(df_status, df_auth, organized_df) := tables in
  let total := total_tx df_status in
  let approved := approved_total df_status in
  rate ← approval_rate approved total;
  Ok (mkView tables total approved (a00_total df_auth) rate).

(** Lines 109-145 on the tables [load_data] returned. *)
Definition dashboard (window_choice : string) (tables : Tables) : Outcome :=
  let '(df_status, df_auth, organized_df) := tables in
  match df_status, df_auth with
  | [], _ | _, [] => NoData
  | s :: ss, a :: aa =>
      let max_ts := Z.max (Series_max (s_ts s) (s_ts <$> ss))
                          (Series_max (a_ts a) (a_ts <$> aa)) in
      match kpis (window (start_ts window_choice max_ts) tables) with
      | Ok v => Rendered v
      | Raise e => Uncaught e
      end
  end.

(** One refresh of the script (lines 100-145).  The cache clock counts
    seconds. *)
Section Script.

Variable run_df_status : string → Raises (list StatusRecord).
Variable run_df_auth : string → Raises (list AuthRecord).
Variable run_organized_df : string → string → Raises (list OrganizedRecord).

(** [os.path.exists], on the path as it is configured. *)
Variable os_path_exists : string → bool.

Definition cached_load_data (now : Z)
    (transactions_csv auth_codes_csv : string) (st : Cache.State)
  : Raises Tables * Cache.State :=
  Cache.get_or_compute (load_data run_df_status run_df_auth run_organized_df)
    now (transactions_csv, auth_codes_csv) 5 st.

Definition app (now : Z) (window_choice : string) (st : Cache.State)
  : Outcome * Cache.State :=
  if negb (os_path_exists TRANSACTIONS_CSV)
     || negb (os_path_exists AUTH_CODES_CSV)
  then (FilesNotFound, st)
  else
    match cached_load_data now TRANSACTIONS_CSV AUTH_CODES_CSV st with
    | (Ok tables, st') => (dashboard window_choice tables, st')
    | (Raise e, st') => (Uncaught e, st')
    end.

End Script.

(** ** Vocabulary of the statements *)

(** The bounded window selectors and their durations, in microseconds. *)
Definition bounded_window (window_choice : string) (duration : Z) : Prop :=
  (window_choice, duration)
  ∈ [("15 minutes", 15 * 60 * 1000000); ("1 hour", 60 * 60 * 1000000);
     ("6 hours", 6 * 60 * 60 * 1000000)].

(** [m] is the maximum timestamp across the two source tables. *)
Definition is_max_ts (m : Z) (df_status : list StatusRecord)
    (df_auth : list AuthRecord) : Prop :=
  let all_ts := ((s_ts <$> df_status) ++ (a_ts <$> df_auth))%list in
  m ∈ all_ts ∧ ∀ ts, ts ∈ all_ts → ts ≤ m.

(** Well-formed typed tables: every count is a non-negative [BIGINT]. *)
Definition well_formed_status (df_status : list StatusRecord) : Prop :=
  Forall (λ s, 0 ≤ s_count s < 2 ^ 63) df_status.

Definition well_formed_auth (df_auth : list AuthRecord) : Prop :=
  Forall (λ a, 0 ≤ a_count a < 2 ^ 63) df_auth.

#[global] Instance well_formed_status_dec df : Decision (well_formed_status df).
Proof. unfold well_formed_status. apply _. Defined.
#[global] Instance well_formed_auth_dec df : Decision (well_formed_auth df).
Proof. unfold well_formed_auth. apply _. Defined.

(** A path without the quote character. *)
Definition quote : ascii := "'"%char.

Definition quote_free (path : string) : Prop :=
  quote ∉ list_ascii_of_string path.

#[global] Instance quote_free_dec path : Decision (quote_free path).
Proof. unfold quote_free. apply _. Defined.

(** ** The auth-code chart and the table view (lines 177-189) *)

(** Line 178, [df_auth["ts"].max()]: [None] is NaT, the maximum of a column
    without rows. *)
Definition latest_ts (df_auth : list AuthRecord) : option Z :=
  match df_auth with
  | [] => None
  | a :: aa => Some (Series_max (a_ts a) (a_ts <$> aa))
  end.

(** Line 180, [df_auth[df_auth["ts"] == latest_ts]]: no row equals NaT. *)
Definition latest_rows (df_auth : list AuthRecord) : list AuthRecord :=
  match latest_ts df_auth with
  | Some latest => filter (λ a, a_ts a = latest) df_auth
  | None => []
  end.

(** Line 181, [.groupby("auth_code", as_index=False)["count"].sum()]: one row
    per code, with the [int64] sum of its counts. *)
Definition groupby_auth_code_sum (rows : list AuthRecord) : list (string * Z) :=
  (λ code, (code, Series_sum (a_count <$> filter (λ a, a_code a = code) rows)))
    <$> remove_dups (a_code <$> rows).

(** Line 182, [.sort_values("count", ascending=False)].  The order of rows
    with equal counts is the sort's own; here it is the library merge sort
    on the codes in order of first appearance. *)
Definition count_ge (x y : string * Z) : Prop := y.2 ≤ x.2.

#[global] Instance count_ge_dec : RelDecision count_ge.
Proof. intros x y. unfold count_ge. apply _. Defined.

Definition latest_auth_dist (df_auth : list AuthRecord) : list (string * Z) :=
  merge_sort count_ge (groupby_auth_code_sum (latest_rows df_auth)).


(** ** Vocabulary of the further statements *)

Definition backslash : ascii := "\"%char.

(** The rows of the auth table at its latest timestamp [latest] with [code]. *)
Definition auth_rows_at (latest : Z) (code : string) (df_auth : list AuthRecord)
  : list AuthRecord :=
  filter (λ a, a_ts a = latest ∧ a_code a = code) df_auth.

(** * Properties *)

(** ** Sums *)

Lemma SUM_app (l1 l2 : list Z) : SUM (l1 ++ l2) = SUM l1 + SUM l2.
Proof. unfold SUM. induction l1 as [|x l1 IH]; simpl; lia. Qed.

Lemma SUM_cons (x : Z) (l : list Z) : SUM (x :: l) = x + SUM l.
Proof. reflexivity. Qed.

(** ** The KPIs *)

Lemma approval_rate_Ok (approved total : Z) :
  approval_rate approved total
  = Ok (if decide (total = 0%Z) then 0
        else inject_Z approved / inject_Z total * 100)%Q.
Proof.
  unfold approval_rate, truediv. destruct (decide (total = 0)) as [Hz|Hnz].
  - by rewrite decide_False by tauto.
  - by rewrite decide_True by done.
Qed.

Lemma kpis_Ok (tables : Tables) : ∃ v, kpis tables = Ok v ∧ v_tables v = tables.
Proof.
  destruct tables as [[df_status df_auth] organized_df].
  unfold kpis. rewrite approval_rate_Ok. simpl. eauto.
Qed.

(** C9: for every status table the KPIs are computed without an exception.
    The approval rate, the percentage that line 145 prints, is the ratio
    [approved_total / total_tx]: the rate over 100 equals it; and the rate is
    exactly 0 when [total_tx] is 0, in which case no division takes place. *)
Theorem approval_rate_is_the_guarded_ratio
    (df_status : list StatusRecord) (df_auth : list AuthRecord)
    (organized_df : list OrganizedRecord) :
  ∃ rate,
    approval_rate (approved_total df_status) (total_tx df_status) = Ok rate
    ∧ kpis (df_status, df_auth, organized_df)
      = Ok (mkView (df_status, df_auth, organized_df) (total_tx df_status)
                   (approved_total df_status) (a00_total df_auth) rate)
    ∧ if decide (total_tx df_status = 0) then rate = 0%Q
      else (rate / 100 == inject_Z (approved_total df_status)
                          / inject_Z (total_tx df_status))%Q.
Proof.
  eexists. split; [apply approval_rate_Ok|]. split.
  - unfold kpis. by rewrite approval_rate_Ok.
  - case_decide; [done|]. apply Qdiv_mult_l. by vm_compute.
Qed.

(** Scenario A: 10 approved out of 12 is 83.33 percent. *)
Example scenario_A_approval_rate :
  let df_status := [mkStatus 0 "approved" 10; mkStatus 0 "denied" 2] in
  total_tx df_status = 12 ∧ approved_total df_status = 10
  ∧ ∃ rate, approval_rate (approved_total df_status) (total_tx df_status) = Ok rate
            ∧ (rate == 1000 # 12)%Q ∧ (rate / 100 == 10 # 12)%Q.
Proof.
  cbv zeta. split; [by vm_compute|]. split; [by vm_compute|].
  eexists. split; [by vm_compute|]. split; by vm_compute.
Qed.

Example approval_rate_zero_total :
  approval_rate (approved_total []) (total_tx []) = Ok 0%Q.
Proof. by vm_compute. Qed.

(** ** The empty-table guard and the window filter *)

Lemma Series_max_elem (x : Z) (xs : list Z) : Series_max x xs ∈ x :: xs.
Proof.
  unfold Series_max. induction xs as [|y xs IH]; simpl; [left|].
  destruct (Z.max_spec y (foldr Z.max x xs)) as [[_ ->]|[_ ->]].
  - apply elem_of_cons in IH as [->|IH]; [left|]. by do 2 right.
  - right; left.
Qed.

Lemma Series_max_upper (x : Z) (xs : list Z) (y : Z) :
  y ∈ x :: xs → y ≤ Series_max x xs.
Proof.
  unfold Series_max. induction xs as [|z xs IH]; simpl.
  - intros ->%list_elem_of_singleton. lia.
  - intros [->|[->|Hy]%elem_of_cons]%elem_of_cons.
    + etrans; [apply IH; left|]. lia.
    + lia.
    + etrans; [apply IH; by right|]. lia.
Qed.

Lemma max_ts_is_max (s : StatusRecord) (ss : list StatusRecord)
    (a : AuthRecord) (aa : list AuthRecord) :
  is_max_ts (Z.max (Series_max (s_ts s) (s_ts <$> ss))
                   (Series_max (a_ts a) (a_ts <$> aa)))
            (s :: ss) (a :: aa).
Proof.
  unfold is_max_ts. cbv zeta. rewrite !fmap_cons.
  pose proof (Series_max_elem (s_ts s) (s_ts <$> ss)) as Hs.
  pose proof (Series_max_elem (a_ts a) (a_ts <$> aa)) as Ha.
  split.
  - apply elem_of_app.
    destruct (Z.max_spec (Series_max (s_ts s) (s_ts <$> ss))
                         (Series_max (a_ts a) (a_ts <$> aa))) as [[_ ->]|[_ ->]];
      [by right|by left].
  - intros ts [Hts|Hts]%elem_of_app.
    + apply Series_max_upper in Hts. lia.
    + apply Series_max_upper in Hts. lia.
Qed.

Lemma start_ts_bounded (window_choice : string) (duration max_ts : Z) :
  bounded_window window_choice duration →
  start_ts window_choice max_ts = Some (max_ts - duration).
Proof.
  unfold bounded_window.
  intros [[= -> ->]|[[= -> ->]|[[= -> ->]|[]%elem_of_nil]%elem_of_cons]%elem_of_cons]%elem_of_cons;
    reflexivity.
Qed.

(** C6: with both source tables non-empty and a bounded selector, the run
    renders; [start_ts] is the maximum timestamp of the two source tables
    minus the duration, and each of the three tables is cut down to its rows
    with [ts >= start_ts]: a row at [start_ts] stays, a row one microsecond
    earlier goes, and nothing is cut from above. *)
Theorem window_filter_keeps_rows_from_start_ts
    (window_choice : string) (duration : Z) (df_status : list StatusRecord)
    (df_auth : list AuthRecord) (organized_df : list OrganizedRecord) :
  bounded_window window_choice duration →
  df_status ≠ [] → df_auth ≠ [] →
  ∃ max_ts v,
    is_max_ts max_ts df_status df_auth
    ∧ start_ts window_choice max_ts = Some (max_ts - duration)
    ∧ dashboard window_choice (df_status, df_auth, organized_df) = Rendered v
    ∧ v_tables v
      = (filter (λ r, max_ts - duration ≤ s_ts r) df_status,
         filter (λ r, max_ts - duration ≤ a_ts r) df_auth,
         filter (λ r, max_ts - duration ≤ o_ts r) organized_df)
    ∧ (∀ r, r ∈ df_status → s_ts r = max_ts - duration → r ∈ (v_tables v).1.1)
    ∧ (∀ r, r ∈ (v_tables v).1.1 → s_ts r ≠ max_ts - duration - 1)
    ∧ (∀ r, r ∈ df_auth → a_ts r = max_ts - duration → r ∈ (v_tables v).1.2)
    ∧ (∀ r, r ∈ (v_tables v).1.2 → a_ts r ≠ max_ts - duration - 1)
    ∧ (∀ r, r ∈ organized_df → o_ts r = max_ts - duration → r ∈ (v_tables v).2)
    ∧ (∀ r, r ∈ (v_tables v).2 → o_ts r ≠ max_ts - duration - 1).
Proof.
  intros Hw Hs Ha.
  destruct df_status as [|s ss]; [done|]. destruct df_auth as [|a aa]; [done|].
  set (max_ts := Z.max (Series_max (s_ts s) (s_ts <$> ss))
                       (Series_max (a_ts a) (a_ts <$> aa))).
  destruct (kpis_Ok (window (Some (max_ts - duration))
                            (s :: ss, a :: aa, organized_df))) as (v & Hv & Htab).
  exists max_ts, v.
  split; [apply max_ts_is_max|]. split; [by apply start_ts_bounded|].
  split.
  { unfold dashboard. fold max_ts.
    rewrite (start_ts_bounded _ duration) by done. by rewrite Hv. }
  rewrite Htab. unfold window, mask_status, mask_auth, mask_org. simpl.
  split; [done|].
  repeat split; intros r; rewrite ?list_elem_of_filter;
    first [intros Hr Heq; split; [lia|done] | intros [Hle _]; lia].
Qed.

Lemma window_filter_keeps_rows_from_start_ts_witness :
  ∃ max_ts v,
    is_max_ts max_ts [mkStatus 0 "approved" 10; mkStatus 900000000 "denied" 2]
                     [mkAuth 899999999 "00" 9; mkAuth 1800000000 "00" 1]
    ∧ start_ts "15 minutes" max_ts = Some (max_ts - 15 * 60 * 1000000)
    ∧ dashboard "15 minutes"
        ([mkStatus 0 "approved" 10; mkStatus 900000000 "denied" 2],
         [mkAuth 899999999 "00" 9; mkAuth 1800000000 "00" 1],
         [mkOrganized 0 10 0 0 0 0 0 None; mkOrganized 900000000 0 2 0 0 0 0 None])
      = Rendered v
    ∧ v_tables v
      = ([mkStatus 900000000 "denied" 2], [mkAuth 1800000000 "00" 1],
         [mkOrganized 900000000 0 2 0 0 0 0 None]).
Proof.
  destruct (window_filter_keeps_rows_from_start_ts "15 minutes" (15 * 60 * 1000000)
              [mkStatus 0 "approved" 10; mkStatus 900000000 "denied" 2]
              [mkAuth 899999999 "00" 9; mkAuth 1800000000 "00" 1]
              [mkOrganized 0 10 0 0 0 0 0 None; mkOrganized 900000000 0 2 0 0 0 0 None])
    as (max_ts & v & Hmax & Hstart & Hrun & Htab & _).
  - unfold bounded_window. left.
  - discriminate.
  - discriminate.
  - exists max_ts, v.
    split; [exact Hmax|]. split; [exact Hstart|]. split; [exact Hrun|].
    vm_compute in Hrun. injection Hrun as <-. reflexivity.
Defined.

(** C7: when either table [load_data] returned is empty, the run stops in the
    no-data state; no maximum timestamp, window or KPI is computed and no
    exception is raised.  An empty status table with a non-empty auth table
    is such a case. *)
Theorem empty_table_is_no_data
    (window_choice : string) (df_status : list StatusRecord)
    (df_auth : list AuthRecord) (organized_df : list OrganizedRecord) :
  df_status = [] ∨ df_auth = [] →
  dashboard window_choice (df_status, df_auth, organized_df) = NoData.
Proof.
  intros [-> | ->]; simpl; [done|]. by destruct df_status.
Qed.

Lemma empty_table_is_no_data_witness :
  dashboard "1 hour" ([], [mkAuth 0 "00" 9], []) = NoData.
Proof.
  apply empty_table_is_no_data. left. reflexivity.
Defined.

(** C10: the tables a run renders are sublists of the tables it was given, so
    every row kept is a row of the input, unchanged and in its place; with the
    selector "All" the three tables are the input tables. *)
Theorem window_filter_only_removes_rows
    (window_choice : string) (tables : Tables) (v : View) :
  dashboard window_choice tables = Rendered v →
  (v_tables v).1.1 `sublist_of` tables.1.1
  ∧ (v_tables v).1.2 `sublist_of` tables.1.2
  ∧ (v_tables v).2 `sublist_of` tables.2
  ∧ (window_choice = "All" → v_tables v = tables).
Proof.
  destruct tables as [[df_status df_auth] organized_df]. unfold dashboard.
  destruct df_status as [|s ss]; [done|]. destruct df_auth as [|a aa]; [done|].
  set (max_ts := Z.max _ _).
  destruct (kpis_Ok (window (start_ts window_choice max_ts)
                            (s :: ss, a :: aa, organized_df))) as (v' & -> & Htab).
  intros [= <-]. rewrite Htab. split_and!.
  - destruct (start_ts window_choice max_ts); simpl; [apply sublist_filter|done].
  - destruct (start_ts window_choice max_ts); simpl; [apply sublist_filter|done].
  - destruct (start_ts window_choice max_ts); simpl; [apply sublist_filter|done].
  - intros ->. reflexivity.
Qed.

Lemma window_filter_only_removes_rows_witness :
  ∃ v, dashboard "All"
         ([mkStatus 0 "approved" 10; mkStatus 90000000000 "denied" 2],
          [mkAuth 0 "00" 9],
          [mkOrganized 0 10 0 0 0 0 0 (Some 9);
           mkOrganized 90000000000 0 2 0 0 0 0 None]) = Rendered v
       ∧ v_tables v
         = ([mkStatus 0 "approved" 10; mkStatus 90000000000 "denied" 2],
            [mkAuth 0 "00" 9],
            [mkOrganized 0 10 0 0 0 0 0 (Some 9);
             mkOrganized 90000000000 0 2 0 0 0 0 None]).
Proof.
  set (tables := (_, _, _)).
  assert (dashboard "All" tables = Rendered (mkView tables 12 10 9 (1000 # 12))) as Hrun
    by (vm_compute; reflexivity).
  exists (mkView tables 12 10 9 (1000 # 12)). split; [exact Hrun|].
  exact (proj2 (proj2 (proj2 (window_filter_only_removes_rows _ _ _ Hrun))) eq_refl).
Defined.

(** Any selector other than the three bounded ones leaves the tables as they
    are. *)
Lemma start_ts_unbounded (window_choice : string) (max_ts : Z) :
  window_choice ∉ ["15 minutes"; "1 hour"; "6 hours"] →
  start_ts window_choice max_ts = None.
Proof.
  intros Hw. unfold start_ts.
  repeat (rewrite decide_False; [|intros ->; apply Hw; compute_done]). done.
Qed.

(** ** The load *)

(** The parser rejects the first query: the words [header TRUE] are an
    identifier followed at once by a constant. *)
Lemma load_data_ParserException
    (run_df_status : string → Raises (list StatusRecord))
    (run_df_auth : string → Raises (list AuthRecord))
    (run_organized_df : string → string → Raises (list OrganizedRecord))
    (transactions_csv auth_codes_csv : string) :
  load_data run_df_status run_df_auth run_organized_df
    transactions_csv auth_codes_csv = Raise ParserException.
Proof. reflexivity. Qed.

(** With [header = TRUE] the same check finds no error. *)
Example header_equals_TRUE_parses (duck_path : string) :
  parses (mkCall "read_csv_auto"
            [[StringConstant duck_path];
             [Identifier "header"; Operator "="; Constant "TRUE"]]) = true
  ∧ parses (read_csv_auto duck_path) = false.
Proof. split; reflexivity. Qed.



(** C1: on sources that hold a status row at 00:00:00 and "00" auth rows at
    00:00:00 and 00:01:00, [load_data] raises the parser error, so no
    organized row exists, at 00:01:00 or anywhere. *)
Theorem no_organized_row_for_auth_only_timestamp
    (run_organized_df : string → string → Raises (list OrganizedRecord)) :
  let df_status := [mkStatus 0 "approved" 10] in
  let df_auth := [mkAuth 0 "00" 9; mkAuth 60000000 "00" 7] in
  well_formed_status df_status ∧ well_formed_auth df_auth
  ∧ load_data (λ _, Ok df_status) (λ _, Ok df_auth) run_organized_df
      TRANSACTIONS_CSV AUTH_CODES_CSV = Raise ParserException
  ∧ ¬ ∃ tables r,
        load_data (λ _, Ok df_status) (λ _, Ok df_auth) run_organized_df
          TRANSACTIONS_CSV AUTH_CODES_CSV = Ok tables
        ∧ r ∈ tables.2 ∧ o_ts r = 60000000.
Proof.
  cbv zeta. split; [compute_done|]. split; [compute_done|].
  rewrite load_data_ParserException. split; [done|]. by intros (? & ? & ? & _).
Qed.

(** C2: on the sources of Scenario A, [load_data] raises the parser error, so
    no organized row holds the counts 10 and 2 of 00:00:00. *)
Theorem no_organized_row_holds_the_status_sums
    (run_organized_df : string → string → Raises (list OrganizedRecord)) :
  let df_status := [mkStatus 0 "approved" 10; mkStatus 0 "denied" 2] in
  let df_auth := [mkAuth 0 "00" 9] in
  well_formed_status df_status ∧ well_formed_auth df_auth
  ∧ SUM (s_count <$> filter (λ s, s_ts s = 0) df_status) = 12
  ∧ load_data (λ _, Ok df_status) (λ _, Ok df_auth) run_organized_df
      TRANSACTIONS_CSV AUTH_CODES_CSV = Raise ParserException
  ∧ ¬ ∃ tables r,
        load_data (λ _, Ok df_status) (λ _, Ok df_auth) run_organized_df
          TRANSACTIONS_CSV AUTH_CODES_CSV = Ok tables
        ∧ r ∈ tables.2
        ∧ approved r + denied r + reversed r + backend_reversed r
          + failed r + refunded r = 12.
Proof.
  cbv zeta. split; [compute_done|]. split; [compute_done|].
  split; [by vm_compute|].
  rewrite load_data_ParserException. split; [done|]. by intros (? & ? & ? & _).
Qed.

(** C3: on sources with two "00" auth rows of counts 4 and 5 at 00:00:00,
    [load_data] raises the parser error, so no organized row carries their
    sum 9 as [auth_00_count]. *)
Theorem no_organized_row_carries_the_auth_00_sum
    (run_organized_df : string → string → Raises (list OrganizedRecord)) :
  let df_status := [mkStatus 0 "approved" 10] in
  let df_auth := [mkAuth 0 "00" 4; mkAuth 0 "00" 5] in
  well_formed_status df_status ∧ well_formed_auth df_auth
  ∧ SUM (a_count <$> filter (λ a, a_ts a = 0 ∧ a_code a = "00") df_auth) = 9
  ∧ load_data (λ _, Ok df_status) (λ _, Ok df_auth) run_organized_df
      TRANSACTIONS_CSV AUTH_CODES_CSV = Raise ParserException
  ∧ ¬ ∃ tables r,
        load_data (λ _, Ok df_status) (λ _, Ok df_auth) run_organized_df
          TRANSACTIONS_CSV AUTH_CODES_CSV = Ok tables
        ∧ r ∈ tables.2 ∧ auth_00_count r = Some 9.
Proof.
  cbv zeta. split; [compute_done|]. split; [compute_done|].
  split; [by vm_compute|].
  rewrite load_data_ParserException. split; [done|]. by intros (? & ? & ? & _).
Qed.


(** ** The cache layer *)

(** A call that finds no valid entry invokes the reader, which raises; the
    entries stay as they are. *)
Lemma cached_load_data_miss
    (run_df_status : string → Raises (list StatusRecord))
    (run_df_auth : string → Raises (list AuthRecord))
    (run_organized_df : string → string → Raises (list OrganizedRecord))
    (now : Z) (transactions_csv auth_codes_csv : string) (st : Cache.State) :
  Cache.entries st !! (transactions_csv, auth_codes_csv) = None →
  cached_load_data run_df_status run_df_auth run_organized_df now
    transactions_csv auth_codes_csv st
  = (Raise ParserException,
     Cache.mkState (Cache.entries st) (S (Cache.reader_calls st))).
Proof.
  intros Hnone. unfold cached_load_data, Cache.get_or_compute. rewrite Hnone.
  unfold Cache.recompute. by rewrite load_data_ParserException.
Qed.

(** C5: two calls one second apart, from the empty cache.  Both raise the
    parser error of [load_data]; no payload is returned or stored, and the
    reader is invoked on the second call as on the first. *)
Theorem cached_load_data_stores_nothing
    (run_df_status : string → Raises (list StatusRecord))
    (run_df_auth : string → Raises (list AuthRecord))
    (run_organized_df : string → string → Raises (list OrganizedRecord)) :
  let call := cached_load_data run_df_status run_df_auth run_organized_df in
  let first := call 100 TRANSACTIONS_CSV AUTH_CODES_CSV (Cache.mkState ∅ 0) in
  let second := call 101 TRANSACTIONS_CSV AUTH_CODES_CSV first.2 in
  first = (Raise ParserException, Cache.mkState ∅ 1)
  ∧ second = (Raise ParserException, Cache.mkState ∅ 2).
Proof.
  cbv zeta. rewrite cached_load_data_miss by done. simpl.
  split; [done|]. by rewrite cached_load_data_miss.
Qed.

(** ** Whole runs *)

(** With both files in place, a run ends with the uncaught parser error. *)
Example run_with_both_files
    (run_df_status : string → Raises (list StatusRecord))
    (run_df_auth : string → Raises (list AuthRecord))
    (run_organized_df : string → string → Raises (list OrganizedRecord)) :
  app run_df_status run_df_auth run_organized_df (λ _, true)
    0 "1 hour" (Cache.mkState ∅ 0)
  = (Uncaught ParserException, Cache.mkState ∅ 1).
Proof.
  unfold app. simpl. by rewrite cached_load_data_miss.
Qed.

Example run_with_a_missing_file
    (run_df_status : string → Raises (list StatusRecord))
    (run_df_auth : string → Raises (list AuthRecord))
    (run_organized_df : string → string → Raises (list OrganizedRecord)) :
  app run_df_status run_df_auth run_organized_df
    (λ path, bool_decide (path = TRANSACTIONS_CSV))
    0 "1 hour" (Cache.mkState ∅ 0)
  = (FilesNotFound, Cache.mkState ∅ 0).
Proof. reflexivity. Qed.

Example to_duckdb_path_TRANSACTIONS_CSV :
  to_duckdb_path TRANSACTIONS_CSV = "c://Users//super//Downloads//transactions.csv".
Proof. vm_compute. reflexivity. Qed.

(** * Further properties *)

(** ** Paths *)

Lemma list_ascii_of_to_duckdb_path (path_str : string) :
  list_ascii_of_string (to_duckdb_path path_str)
  = (λ c, if decide (c = "\"%char) then "/"%char else c)
      <$> list_ascii_of_string path_str.
Proof. unfold to_duckdb_path. apply list_ascii_of_string_of_list_ascii. Qed.

Lemma length_list_ascii_of_string (s : string) :
  length (list_ascii_of_string s) = String.length s.
Proof. induction s as [|c s IH]; simpl; congruence. Qed.

(** X1: the DuckDB path has no backslash left and as many characters as the
    path; converting it again changes nothing, and a path is its own DuckDB
    path exactly when it has no backslash. *)
Theorem to_duckdb_path_replaces_backslashes (path_str : string) :
  (backslash ∉ list_ascii_of_string (to_duckdb_path path_str))
  ∧ String.length (to_duckdb_path path_str) = String.length path_str
  ∧ to_duckdb_path (to_duckdb_path path_str) = to_duckdb_path path_str
  ∧ (to_duckdb_path path_str = path_str
     ↔ backslash ∉ list_ascii_of_string path_str).
Proof.
  assert (∀ l : list ascii,
    backslash ∉ (λ c, if decide (c = "\"%char) then "/"%char else c) <$> l) as Hno.
  { intros l (c & Hc & _)%list_elem_of_fmap. unfold backslash in Hc.
    case_decide; [discriminate|congruence]. }
  assert (∀ l : list ascii, backslash ∉ l ↔
    (λ c, if decide (c = "\"%char) then "/"%char else c) <$> l = l) as Hfix.
  { induction l as [|c l IH]; [split; [done|intros _; apply not_elem_of_nil]|].
    rewrite fmap_cons, not_elem_of_cons. split.
    - intros [Hc Hl]. rewrite decide_False by done. f_equal. by apply IH.
    - intros [= Hc Hl]. split; [|by apply IH].
      intros <-. by rewrite decide_True in Hc. }
  split_and!.
  - rewrite list_ascii_of_to_duckdb_path. apply Hno.
  - rewrite <- !length_list_ascii_of_string, list_ascii_of_to_duckdb_path.
    apply length_fmap.
  - unfold to_duckdb_path at 1. rewrite list_ascii_of_to_duckdb_path.
    rewrite (proj1 (Hfix _)) by apply Hno. done.
  - rewrite Hfix. split.
    + intros Heq. rewrite <- list_ascii_of_to_duckdb_path. by rewrite Heq.
    + intros Heq. unfold to_duckdb_path. rewrite Heq.
      apply string_of_list_ascii_of_string.
Qed.

(** ** Outcomes of a run *)

(** X4: the script part of a run ends in one of two ways and raises nothing.
    It reports no data exactly when one of the two loaded tables is empty;
    otherwise it renders the tables windowed from the maximum timestamp of
    the two loaded tables, with the KPIs computed from the windowed tables. *)
Theorem dashboard_outcomes
    (window_choice : string) (df_status : list StatusRecord)
    (df_auth : list AuthRecord) (organized_df : list OrganizedRecord) :
  (dashboard window_choice (df_status, df_auth, organized_df) = NoData
   ∧ (df_status = [] ∨ df_auth = []))
  ∨ (df_status ≠ [] ∧ df_auth ≠ []
     ∧ ∃ max_ts v,
         is_max_ts max_ts df_status df_auth
         ∧ dashboard window_choice (df_status, df_auth, organized_df) = Rendered v
         ∧ v_tables v
           = window (start_ts window_choice max_ts) (df_status, df_auth, organized_df)
         ∧ v_total_tx v = total_tx (v_tables v).1.1
         ∧ v_approved_total v = approved_total (v_tables v).1.1
         ∧ v_a00_total v = a00_total (v_tables v).1.2
         ∧ approval_rate (v_approved_total v) (v_total_tx v)
           = Ok (v_approval_rate v)).
Proof.
  destruct df_status as [|s ss]; [left; split; [done|by left]|].
  destruct df_auth as [|a aa]; [left; split; [done|by right]|].
  right. split; [done|]. split; [done|].
  set (max_ts := Z.max (Series_max (s_ts s) (s_ts <$> ss))
                       (Series_max (a_ts a) (a_ts <$> aa))).
  exists max_ts.
  unfold dashboard. fold max_ts.
  destruct (window (start_ts window_choice max_ts) (s :: ss, a :: aa, organized_df))
    as [[ws wa] wo] eqn:Hw.
  unfold kpis. rewrite approval_rate_Ok. simpl.
  eexists. split_and!; try done; [apply max_ts_is_max|].
  simpl. apply approval_rate_Ok.
Qed.

(** ** The window *)

Lemma sublist_filter_mono {A} (P Q : A → Prop) `{!∀ x, Decision (P x)}
    `{!∀ x, Decision (Q x)} (l : list A) :
  (∀ x, P x → Q x) → filter P l `sublist_of` filter Q l.
Proof.
  intros HPQ. rewrite <- (list_filter_filter_l P Q) by done. apply sublist_filter.
Qed.

Lemma window_sublist (start1 start2 : option Z) (tables : Tables) :
  match start1, start2 with
  | Some s1, Some s2 => s2 ≤ s1
  | None, Some _ => False
  | _, None => True
  end →
  (window start1 tables).1.1 `sublist_of` (window start2 tables).1.1
  ∧ (window start1 tables).1.2 `sublist_of` (window start2 tables).1.2
  ∧ (window start1 tables).2 `sublist_of` (window start2 tables).2.
Proof.
  destruct tables as [[df_status df_auth] organized_df].
  destruct start1 as [s1|], start2 as [s2|]; simpl; try done.
  - intros Hle. split_and!; apply sublist_filter_mono;
      unfold mask_status, mask_auth, mask_org; intros; lia.
  - intros _. split_and!; apply sublist_filter.
Qed.

(** X6: the windows nest.  From the same tables and the same maximum
    timestamp, each table of the 15-minute window is a sublist of the table
    of the 1-hour window, that one of the table of the 6-hour window, and
    that one of the unwindowed table. *)
Theorem windows_nest (max_ts : Z) (tables : Tables) :
  let w15 := window (start_ts "15 minutes" max_ts) tables in
  let w60 := window (start_ts "1 hour" max_ts) tables in
  let w360 := window (start_ts "6 hours" max_ts) tables in
  let wall := window (start_ts "All" max_ts) tables in
  (w15.1.1 `sublist_of` w60.1.1 ∧ w60.1.1 `sublist_of` w360.1.1
   ∧ w360.1.1 `sublist_of` wall.1.1 ∧ wall.1.1 = tables.1.1)
  ∧ (w15.1.2 `sublist_of` w60.1.2 ∧ w60.1.2 `sublist_of` w360.1.2
     ∧ w360.1.2 `sublist_of` wall.1.2 ∧ wall.1.2 = tables.1.2)
  ∧ (w15.2 `sublist_of` w60.2 ∧ w60.2 `sublist_of` w360.2
     ∧ w360.2 `sublist_of` wall.2 ∧ wall.2 = tables.2).
Proof.
  cbv zeta.
  replace (start_ts "15 minutes" max_ts) with (Some (max_ts - timedelta 0 15))
    by reflexivity.
  replace (start_ts "1 hour" max_ts) with (Some (max_ts - timedelta 1 0))
    by reflexivity.
  replace (start_ts "6 hours" max_ts) with (Some (max_ts - timedelta 6 0))
    by reflexivity.
  replace (start_ts "All" max_ts) with (@None Z) by reflexivity.
  pose proof (window_sublist (Some (max_ts - timedelta 0 15))
                (Some (max_ts - timedelta 1 0)) tables) as H1.
  pose proof (window_sublist (Some (max_ts - timedelta 1 0))
                (Some (max_ts - timedelta 6 0)) tables) as H2.
  pose proof (window_sublist (Some (max_ts - timedelta 6 0)) None tables) as H3.
  unfold timedelta in *.
  destruct H1 as (? & ? & ?); [lia|].
  destruct H2 as (? & ? & ?); [lia|].
  destruct H3 as (? & ? & ?); [done|].
  done.
Qed.

(** X7: a rendered run never shows two empty source tables: the row that
    carries the maximum timestamp is inside every window, so the windowed
    status table or the windowed auth table has a row. *)
Theorem window_keeps_the_latest_row
    (window_choice : string) (tables : Tables) (v : View) :
  dashboard window_choice tables = Rendered v →
  (v_tables v).1.1 ≠ [] ∨ (v_tables v).1.2 ≠ [].
Proof.
  destruct tables as [[[|s ss] [|a aa]] organized_df]; simpl; try done.
  set (max_ts := Z.max _ _).
  destruct (kpis_Ok (window (start_ts window_choice max_ts)
                            (s :: ss, a :: aa, organized_df))) as (v' & -> & Htab).
  intros [= <-]. rewrite Htab.
  assert (∀ start, start_ts window_choice max_ts = Some start → start ≤ max_ts)
    as Hstart.
  { unfold start_ts, timedelta. intros start.
    repeat case_decide; intros [= <-]; lia. }
  destruct (max_ts_is_max s ss a aa) as [Hin _]. fold max_ts in Hin.
  destruct (start_ts window_choice max_ts) as [start|]; simpl; [|by left].
  specialize (Hstart _ eq_refl).
  apply elem_of_app in Hin as [Hin|Hin];
    apply list_elem_of_fmap in Hin as (r & Hr & Hin); [left|right];
    intros Hnil; eapply (filter_nil_not_elem_of _ _ r); eauto;
    unfold mask_status, mask_auth; lia.
Qed.

Lemma window_keeps_the_latest_row_witness :
  let v := mkView ([], [mkAuth 90000000000 "00" 9], []) 0 0 9 0 in
  (v_tables v).1.1 ≠ [] ∨ (v_tables v).1.2 ≠ [].
Proof.
  intros v.
  apply (window_keeps_the_latest_row "15 minutes"
           ([mkStatus 0 "approved" 10], [mkAuth 90000000000 "00" 9],
            [mkOrganized 0 10 0 0 0 0 0 None]) v).
  vm_compute. reflexivity.
Defined.

(** ** The KPI sums *)

Lemma SUM_nonneg (l : list Z) : Forall (λ z, 0 ≤ z) l → 0 ≤ SUM l.
Proof. induction 1 as [|z l Hz _ IH]; [done|]. rewrite SUM_cons. lia. Qed.

Lemma SUM_filter_le {A} (f : A → Z) (P : A → Prop) `{!∀ x, Decision (P x)}
    (l : list A) :
  Forall (λ x, 0 ≤ f x) l → 0 ≤ SUM (f <$> filter P l) ≤ SUM (f <$> l).
Proof.
  induction 1 as [|x l Hx _ IH]; [done|].
  rewrite filter_cons. case_decide; rewrite !fmap_cons, !SUM_cons; lia.
Qed.

Lemma int64_range (z : Z) : - 2 ^ 63 ≤ int64 z < 2 ^ 63.
Proof. unfold int64. pose proof (Z.mod_pos_bound (z + 2 ^ 63) (2 ^ 64)). lia. Qed.

Lemma int64_small (z : Z) : - 2 ^ 63 ≤ z < 2 ^ 63 → int64 z = z.
Proof. intros Hz. unfold int64. rewrite Z.mod_small; lia. Qed.

(** X8: every KPI sum is an [int64]: it lies in [-2^63, 2^63), differs from
    the exact sum of the counts by a multiple of 2^64, and is the exact sum
    whenever that fits in 64 bits. *)
Theorem Series_sum_wraps (l : list Z) :
  - 2 ^ 63 ≤ Series_sum l < 2 ^ 63
  ∧ (∃ k, Series_sum l = SUM l + k * 2 ^ 64)
  ∧ (- 2 ^ 63 ≤ SUM l < 2 ^ 63 → Series_sum l = SUM l).
Proof.
  unfold Series_sum. split; [apply int64_range|]. split; [|apply int64_small].
  exists (- ((SUM l + 2 ^ 63) / 2 ^ 64)). unfold int64.
  pose proof (Z.div_mod (SUM l + 2 ^ 63) (2 ^ 64) ltac:(lia)). lia.
Qed.

(** A sum of counts that does not fit wraps around: two rows of 2^62 make a
    total of -2^63. *)
Example total_tx_overflow :
  total_tx [mkStatus 0 "approved" (2 ^ 62); mkStatus 0 "approved" (2 ^ 62)]
  = - 2 ^ 63.
Proof. by vm_compute. Qed.

(** X9: for a status table of non-negative counts whose total fits in 64
    bits, the approved total is between 0 and the total, and the approval
    rate is a percentage between 0 and 100. *)
Theorem approval_rate_between_0_and_100 (df_status : list StatusRecord) :
  well_formed_status df_status →
  SUM (s_count <$> df_status) < 2 ^ 63 →
  0 ≤ approved_total df_status ≤ total_tx df_status
  ∧ total_tx df_status = SUM (s_count <$> df_status)
  ∧ ∃ rate, approval_rate (approved_total df_status) (total_tx df_status) = Ok rate
            ∧ (0 <= rate)%Q ∧ (rate <= 100)%Q.
Proof.
  intros Hwf Hfit.
  assert (Forall (λ s, 0 ≤ s_count s) df_status) as Hnn.
  { eapply Forall_impl; [exact Hwf|]. simpl. intros; lia. }
  pose proof (SUM_filter_le s_count (λ r, s_status r = "approved") df_status Hnn)
    as Happ.
  assert (0 ≤ SUM (s_count <$> df_status)) as Htot.
  { apply SUM_nonneg, Forall_fmap. exact Hnn. }
  assert (total_tx df_status = SUM (s_count <$> df_status)) as Htx.
  { unfold total_tx, Series_sum. apply int64_small. lia. }
  assert (approved_total df_status
          = SUM (s_count <$> filter (λ r, s_status r = "approved") df_status)) as Hap.
  { unfold approved_total, Series_sum. apply int64_small. lia. }
  split; [lia|]. split; [done|].
  rewrite approval_rate_Ok. eexists. split; [done|].
  set (a := approved_total df_status) in *. set (t := total_tx df_status) in *.
  case_decide as Hz; [split; by vm_compute|].
  assert (0 < inject_Z t)%Q as Htpos by (unfold Qlt; simpl; lia).
  split.
  - apply Qmult_le_0_compat; [|by vm_compute].
    apply Qle_shift_div_l; [done|]. unfold Qle; simpl. lia.
  - apply Qle_trans with (1 * 100)%Q; [|by vm_compute].
    apply Qmult_le_compat_r; [|by vm_compute].
    apply Qle_shift_div_r; [done|]. unfold Qle; simpl. lia.
Qed.

Lemma approval_rate_between_0_and_100_witness :
  let df_status := [mkStatus 0 "approved" 10; mkStatus 0 "denied" 2] in
  0 ≤ approved_total df_status ≤ total_tx df_status
  ∧ total_tx df_status = SUM (s_count <$> df_status)
  ∧ ∃ rate, approval_rate (approved_total df_status) (total_tx df_status) = Ok rate
            ∧ (0 <= rate)%Q ∧ (rate <= 100)%Q.
Proof.
  apply approval_rate_between_0_and_100.
  - compute_done.
  - vm_compute. reflexivity.
Defined.

(** ** The auth-code chart *)

Lemma latest_ts_is_max (df_auth : list AuthRecord) :
  df_auth ≠ [] →
  ∃ latest, latest_ts df_auth = Some latest
            ∧ latest ∈ a_ts <$> df_auth
            ∧ ∀ a, a ∈ df_auth → a_ts a ≤ latest.
Proof.
  destruct df_auth as [|a aa]; [done|]. intros _. eexists. split; [done|]. split.
  - rewrite fmap_cons. apply Series_max_elem.
  - intros b Hb. apply Series_max_upper. rewrite <- fmap_cons.
    by apply list_elem_of_fmap_2.
Qed.

Lemma groupby_auth_code_sum_latest_rows (df_auth : list AuthRecord) (latest : Z)
    (code : string) (v : Z) :
  latest_ts df_auth = Some latest →
  (code, v) ∈ groupby_auth_code_sum (latest_rows df_auth) ↔
  auth_rows_at latest code df_auth ≠ []
  ∧ v = Series_sum (a_count <$> auth_rows_at latest code df_auth).
Proof.
  intros Hlatest. unfold groupby_auth_code_sum, latest_rows. rewrite Hlatest.
  assert (∀ c, filter (λ a, a_code a = c) (filter (λ a, a_ts a = latest) df_auth)
               = auth_rows_at latest c df_auth) as Hrows.
  { intros c. rewrite list_filter_filter. apply list_filter_iff. intros a. tauto. }
  rewrite list_elem_of_fmap. setoid_rewrite elem_of_remove_dups.
  setoid_rewrite list_elem_of_fmap. setoid_rewrite Hrows. split.
  - intros (c & [= -> ->] & a & -> & Ha). split; [|done].
    intros Hnil. eapply (filter_nil_not_elem_of _ _ a); [exact Hnil| |].
    + by apply list_elem_of_filter in Ha as [-> _].
    + by apply list_elem_of_filter in Ha as [_ ?].
  - intros [Hne ->]. exists code. split; [done|].
    destruct (auth_rows_at latest code df_auth) as [|a l] eqn:Ha; [done|].
    assert (a ∈ auth_rows_at latest code df_auth) as Hin by (rewrite Ha; left).
    apply list_elem_of_filter in Hin as [[Hts Hcode] Hin].
    exists a. split; [done|]. by apply list_elem_of_filter.
Qed.

(** X14: the auth-code distribution has one bar per auth code, in order of
    non-increasing count; for an auth table without rows it has no bar. *)
Theorem latest_auth_dist_is_sorted_and_distinct (df_auth : list AuthRecord) :
  Sorted count_ge (latest_auth_dist df_auth)
  ∧ NoDup (latest_auth_dist df_auth).*1
  ∧ latest_auth_dist [] = [].
Proof.
  unfold latest_auth_dist. split_and!.
  - apply Sorted_merge_sort. intros x y. unfold count_ge. lia.
  - rewrite merge_sort_Permutation. unfold groupby_auth_code_sum.
    rewrite <- list_fmap_compose.
    rewrite (list_fmap_ext _ id) by done. rewrite list_fmap_id.
    apply NoDup_remove_dups.
  - reflexivity.
Qed.

(** X15: the bars are those of the latest timestamp only.  For an auth table
    with rows, [latest_ts] is its maximum timestamp, and a code has a bar
    exactly when some row at that timestamp has the code; the bar is the
    [int64] sum of the counts of the rows at that timestamp with that code. *)
Theorem latest_auth_dist_sums_the_latest_rows (df_auth : list AuthRecord) :
  df_auth ≠ [] →
  ∃ latest,
    latest_ts df_auth = Some latest
    ∧ latest ∈ a_ts <$> df_auth
    ∧ (∀ a, a ∈ df_auth → a_ts a ≤ latest)
    ∧ ∀ code v,
        (code, v) ∈ latest_auth_dist df_auth ↔
        auth_rows_at latest code df_auth ≠ []
        ∧ v = Series_sum (a_count <$> auth_rows_at latest code df_auth).
Proof.
  intros (latest & Hlatest & Hin & Hmax)%latest_ts_is_max.
  exists latest. split_and!; [done..|]. intros code v.
  unfold latest_auth_dist. rewrite merge_sort_Permutation.
  by apply groupby_auth_code_sum_latest_rows.
Qed.

Lemma latest_auth_dist_sums_the_latest_rows_witness :
  let df_auth := [mkAuth 0 "00" 5; mkAuth 60000000 "51" 2; mkAuth 60000000 "00" 7;
                  mkAuth 60000000 "51" 1] in
  latest_auth_dist df_auth = [("00", 7); ("51", 3)]
  ∧ ∃ latest,
      latest_ts df_auth = Some latest
      ∧ latest ∈ a_ts <$> df_auth
      ∧ (∀ a, a ∈ df_auth → a_ts a ≤ latest)
      ∧ ∀ code v,
          (code, v) ∈ latest_auth_dist df_auth ↔
          auth_rows_at latest code df_auth ≠ []
          ∧ v = Series_sum (a_count <$> auth_rows_at latest code df_auth).
Proof.
  intros df_auth. split; [vm_compute; reflexivity|].
  apply latest_auth_dist_sums_the_latest_rows. discriminate.
Defined.

(** ** The table view *)



